(** * MCP hub, server manager and tool-argument validation of srcbook

    A shallow embedding of
    - [packages/api/mcp/McpHub.mts]: the classes [McpHub] (connection
      registry, capability cache, reconciliation, per-server queries,
      [callTool]) and [McpServerManager] (shared instance with reference
      counting, provider commands and queries), and the zod schema
      [ServerConfigSchema];
    - the [MCPClientManager] of the client manager module
      ([initialize], [loadConfig], [connectToServer], [discoverAllTools],
      [getTools], [createZodSchema], [validateToolArgs], [callTool],
      [findTool], [close]), and [getMCPTools] of the AI tool formatter.

    JavaScript values are modelled as JSON trees; a thrown exception is a
    separate outcome; [await] points run to completion one after the other. *)

From Stdlib Require Import List String Ascii ZArith QArith Bool Lia.
Import ListNotations.
Open Scope string_scope.
Set Warnings "-register-all".

(* ------------------------------------------------------------------ *)
(** ** Printing numbers (template literals, [String(n)]) *)

Fixpoint digits_of_N (fuel : nat) (n : N) (acc : string) : string :=
  match fuel with
  | O => acc
  | Datatypes.S fuel' =>
      let d := N.modulo n 10 in
      let acc' := String (ascii_of_N (48 + d)) acc in
      let q := N.div n 10 in
      if N.eqb q 0 then acc' else digits_of_N fuel' q acc'
  end.

Definition string_of_N (n : N) : string :=
  digits_of_N (Datatypes.S (N.size_nat n)) n "".

Definition string_of_Z (z : Z) : string :=
  match z with
  | Z0 => "0"
  | Zpos p => string_of_N (Npos p)
  | Zneg p => "-" ++ string_of_N (Npos p)
  end.

Definition string_of_nat (n : nat) : string := string_of_N (N.of_nat n).

(** A JavaScript number; non-integral values print as a reduced fraction
    (JavaScript prints the shortest decimal: both are injective). *)
Definition string_of_Q (q : Q) : string :=
  let r := Qred q in
  if Pos.eqb (Qden r) 1 then string_of_Z (Qnum r)
  else string_of_Z (Qnum r) ++ "/" ++ string_of_N (Npos (Qden r)).

(** [Array.prototype.join] *)
Fixpoint join (sep : string) (xs : list string) : string :=
  match xs with
  | [] => ""
  | [x] => x
  | x :: xs' => x ++ sep ++ join sep xs'
  end.

(* ------------------------------------------------------------------ *)
(** ** JSON values *)

Inductive json : Type :=
| JNull
| JBool (b : bool)
| JNum (q : Q)
| JStr (s : string)
| JArr (xs : list json)
| JObj (kvs : list (string * json)).

(** Property read [o[k]] of an own property; [None] is [undefined].
    Of duplicated keys the first one counts. *)
Fixpoint obj_get (kvs : list (string * json)) (k : string) : option json :=
  match kvs with
  | [] => None
  | (k', v) :: rest => if String.eqb k k' then Some v else obj_get rest k
  end.

Definition json_get (v : json) (k : string) : option json :=
  match v with JObj kvs => obj_get kvs k | _ => None end.

(** *** Property order

    The own keys of an object are listed ([Object.keys], [Object.entries],
    [for ... in], [JSON.stringify]) with the array-index keys first, in
    ascending numeric order, then the other keys in insertion order. *)

Definition digit_value (c : ascii) : option N :=
  let n := N_of_ascii c in
  if (N.leb 48 n && N.leb n 57)%bool then Some (n - 48)%N else None.

Fixpoint digits_value (s : string) (acc : N) : option N :=
  match s with
  | EmptyString => Some acc
  | String c rest =>
      match digit_value c with
      | Some d => digits_value rest (acc * 10 + d)%N
      | None => None
      end
  end.

(** The index a key denotes if it is an array index: the canonical
    decimal form of an integer below 2^32 - 1. *)
Definition array_index (k : string) : option N :=
  match k with
  | EmptyString => None
  | String c rest =>
      if Ascii.eqb c "0"%char then
        match rest with EmptyString => Some 0%N | _ => None end
      else
        match digits_value k 0 with
        | Some n => if N.leb n 4294967294 then Some n else None
        | None => None
        end
  end.

(** The first occurrence of each key. *)
Fixpoint dedup_first {V : Type} (seen : list string) (kvs : list (string * V))
  : list (string * V) :=
  match kvs with
  | [] => []
  | (k, v) :: rest =>
      if existsb (String.eqb k) seen then dedup_first seen rest
      else (k, v) :: dedup_first (k :: seen) rest
  end.

Fixpoint insert_index {V : Type} (n : N) (kv : string * V) (l : list (N * (string * V)))
  : list (N * (string * V)) :=
  match l with
  | [] => [(n, kv)]
  | (m, kv') :: rest =>
      if N.ltb n m then (n, kv) :: l else (m, kv') :: insert_index n kv rest
  end.

Definition is_index_key {V : Type} (kv : string * V) : bool :=
  match array_index (fst kv) with Some _ => true | None => false end.

(** The own properties of an object in the order JavaScript lists them. *)
Definition js_entries {V : Type} (kvs : list (string * V)) : list (string * V) :=
  let u := dedup_first [] kvs in
  let idx := fold_right (fun kv acc => match array_index (fst kv) with
                                       | Some n => insert_index n kv acc
                                       | None => acc end) [] u in
  (map snd idx ++ filter (fun kv => negb (is_index_key kv)) u)%list.

Fixpoint index_entries {A : Type} (i : nat) (xs : list A) : list (string * A) :=
  match xs with
  | [] => []
  | x :: rest => (string_of_nat i, x) :: index_entries (Datatypes.S i) rest
  end.

(** [Object.entries(v)] for a value that is not [null] or [undefined]. *)
Definition object_entries (v : json) : list (string * json) :=
  match v with
  | JObj kvs => js_entries kvs
  | JArr xs => index_entries 0 xs
  | JStr s => index_entries 0 (map (fun c => JStr (String c EmptyString)) (list_ascii_of_string s))
  | _ => []
  end.

(** String escaping of [JSON.stringify] for the two characters that
    would otherwise break injectivity. *)
Fixpoint escape (s : string) : string :=
  match s with
  | EmptyString => EmptyString
  | String c rest =>
      if Ascii.eqb c "034"%char then String "\" (String "034"%char (escape rest))
      else if Ascii.eqb c "\" then String "\" (String "\" (escape rest))
      else String c (escape rest)
  end.

Definition quote (s : string) : string :=
  String "034"%char (escape s ++ String "034"%char EmptyString).

(** [JSON.stringify]: the members of an object in property order. *)
Fixpoint json_stringify (v : json) : string :=
  match v with
  | JNull => "null"
  | JBool true => "true"
  | JBool false => "false"
  | JNum q => string_of_Q q
  | JStr s => quote s
  | JArr xs => "[" ++ join "," (map json_stringify xs) ++ "]"
  | JObj kvs =>
      "{" ++ join "," (map (fun kv => quote (fst kv) ++ ":" ++ snd kv)
                          (js_entries (map (fun kv => (fst kv, json_stringify (snd kv))) kvs)))
      ++ "}"
  end.

(** zod's [getParsedType] names. *)
Definition type_name (x : option json) : string :=
  match x with
  | None => "undefined"
  | Some JNull => "null"
  | Some (JBool _) => "boolean"
  | Some (JNum _) => "number"
  | Some (JStr _) => "string"
  | Some (JArr _) => "array"
  | Some (JObj _) => "object"
  end.

(* ------------------------------------------------------------------ *)
(** ** Exceptions and the conversions that throw *)

(** A thrown JavaScript value: an [Error] with its message, or any other
    value with its [String(value)]. *)
Inductive exn : Type :=
| JsError (message : string)
| JsValue (as_string : string).

(** [error instanceof Error ? error.message : String(error)] *)
Definition exn_message (e : exn) : string :=
  match e with JsError m => m | JsValue s => s end.

(** Outcome of an async call: resolved, or rejected with a thrown value. *)
Inductive outcome (A : Type) : Type :=
| Ret (a : A)
| Throw (e : exn).
Arguments Ret {A} a.
Arguments Throw {A} e.

(** The [TypeError] of converting to a primitive an object whose own
    [toString] property (a JSON value, so not callable) shadows
    [Object.prototype.toString]: [valueOf] gives the object back and
    [toString] cannot be called. *)
Definition to_primitive_error : string := "Cannot convert object to primitive value".

Definition type_error : exn := JsError to_primitive_error.

Fixpoint all_some {A : Type} (xs : list (option A)) : option (list A) :=
  match xs with
  | [] => Some []
  | None :: _ => None
  | Some x :: rest => option_map (cons x) (all_some rest)
  end.

(** [String(v)] ([ToString]); [None] when it throws. *)
Fixpoint to_string (v : json) : option string :=
  match v with
  | JNull => Some "null"
  | JBool true => Some "true"
  | JBool false => Some "false"
  | JNum q => Some (string_of_Q q)
  | JStr s => Some s
  | JArr xs =>
      option_map (join ",")
        (all_some (map (fun x => match x with JNull => Some "" | _ => to_string x end) xs))
  | JObj kvs =>
      match obj_get kvs "toString" with
      | Some _ => None
      | None => Some "[object Object]"
      end
  end.

(** JavaScript numbers as far as comparisons see them. *)
Inductive jsnum : Type :=
| NaN
| PosInf
| NegInf
| Fin (q : Q).

(** [ToNumber] as the relational operators apply it; [s2n] is
    [StringToNumber]; [None] when it throws. *)
Definition to_number (s2n : string -> jsnum) (v : json) : option jsnum :=
  match v with
  | JNull => Some (Fin 0)
  | JBool b => Some (Fin (if b then 1 else 0))
  | JNum q => Some (Fin q)
  | JStr s => Some (s2n s)
  | _ => option_map s2n (to_string v)
  end.

(** [a < b] on numbers. *)
Definition jsnum_lt (a b : jsnum) : bool :=
  match a, b with
  | NaN, _ | _, NaN => false
  | Fin x, Fin y => negb (Qle_bool y x)
  | NegInf, NegInf => false
  | NegInf, _ => true
  | PosInf, PosInf => false
  | _, PosInf => true
  | _, _ => false
  end.

(* ------------------------------------------------------------------ *)
(** ** The zod schemas the code builds, and zod's [parse] *)

Module Zod.

Inductive path_elem : Type := PKey (k : string) | PIdx (i : nat).

Definition string_of_path_elem (p : path_elem) : string :=
  match p with PKey k => k | PIdx i => string_of_nat i end.

(** Issue codes, with the parts of the message zod has computed when it
    raises them ([String] of a bound, [joinValues] of enum values). *)
Inductive code : Type :=
| InvalidType (expected received : string)
| InvalidEnum (options received : string)
| StrTooSmall (minimum : string)
| StrTooBig (maximum : string)
| NumTooSmall (minimum : string)
| NumTooBig (maximum : string)
| NotInteger
| InvalidUnion
| Custom (msg : string).

Record issue : Type := { path : list path_elem; icode : code }.

(** [util.joinValues]: strings quoted, then [Array.prototype.join]. *)
Definition joinValues (vs : list json) : option string :=
  option_map (join " | ")
    (all_some (map (fun v => match v with
                             | JStr s => Some ("'" ++ s ++ "'")
                             | JNull => Some ""
                             | _ => to_string v
                             end) vs)).

(** zod's default English error map. *)
Definition message (c : code) : string :=
  match c with
  | InvalidType _ "undefined" => "Required"
  | InvalidType e r => "Expected " ++ e ++ ", received " ++ r
  | InvalidEnum os r => "Invalid enum value. Expected " ++ os ++ ", received '" ++ r ++ "'"
  | StrTooSmall n => "String must contain at least " ++ n ++ " character(s)"
  | StrTooBig n => "String must contain at most " ++ n ++ " character(s)"
  | NumTooSmall n => "Number must be greater than or equal to " ++ n
  | NumTooBig n => "Number must be less than or equal to " ++ n
  | NotInteger => "Expected integer, received float"
  | InvalidUnion => "Invalid input"
  | Custom m => m
  end.

(** Checks keep the bound as given: zod compares with [<] and prints it
    with a template literal. *)
Inductive str_check : Type :=
| SRegex (pattern : string)
| SMin (value : json) (msg : option string)
| SMax (value : json)
| SUrl (msg : string).

Inductive num_check : Type := NMin (value : json) | NMax (value : json).

Inductive schema : Type :=
| ZAny
| ZUndefined
| ZString (checks : list str_check)
| ZNumber (int : bool) (checks : list num_check)
| ZBoolean
| ZNull
| ZEnum (values : list json)
| ZArray (item : schema)
| ZObject (shape : list (string * schema))
| ZRecord (value : schema)
| ZOptional (s : schema)
| ZDefault (s : schema) (d : json)
| ZUnion (options : list schema)
| ZTransform (s : schema) (f : json -> json)
| ZRefine (s : schema) (p : json -> bool) (msg : string).

(** What zod and the code delegate to the JavaScript runtime. *)
Record runtime : Type := {
  regex_test : string -> string -> bool;   (** [new RegExp(p).test(s)] *)
  url_valid : string -> bool;              (** [new URL(s)] does not throw *)
  str_to_number : string -> jsnum;         (** [StringToNumber] *)
  regex_error : string -> option string    (** message of the [SyntaxError] of [new RegExp(p)] *)
}.

(** Parse status: valid with its output, failed ([aborted] is zod's
    INVALID, otherwise the status is "dirty": only checks failed), or
    an exception thrown out of [parse]. *)
Inductive result : Type :=
| Ok (out : option json)
| Fail (aborted : bool) (issues : list issue)
| Crash (e : exn).

Definition mk (c : code) : issue := {| path := []; icode := c |}.

Definition prefix (p : path_elem) (is : list issue) : list issue :=
  map (fun i => {| path := p :: path i; icode := icode i |}) is.

Definition fail_type (expected received : string) : result :=
  Fail true [mk (InvalidType expected received)].

Definition invalid_type (expected : string) (x : option json) : result :=
  fail_type expected (type_name x).

Definition len (s : string) : Q := inject_Z (Z.of_nat (String.length s)).

(** The issue of a failed bound: its message prints the bound. *)
Definition bound_issue (c : string -> code) (v : json) : outcome (list issue) :=
  match to_string v with
  | Some s => Ret [mk (c s)]
  | None => Throw type_error
  end.

Definition check_string (rt : runtime) (s : string) (c : str_check) : outcome (list issue) :=
  match c with
  | SRegex p => Ret (if regex_test rt p s then [] else [mk (Custom "Invalid")])
  | SMin v m =>
      match to_number (str_to_number rt) v with
      | None => Throw type_error
      | Some n =>
          if jsnum_lt (Fin (len s)) n then
            match m with Some m' => Ret [mk (Custom m')] | None => bound_issue StrTooSmall v end
          else Ret []
      end
  | SMax v =>
      match to_number (str_to_number rt) v with
      | None => Throw type_error
      | Some n => if jsnum_lt n (Fin (len s)) then bound_issue StrTooBig v else Ret []
      end
  | SUrl m => Ret (if url_valid rt s then [] else [mk (Custom m)])
  end.

Definition is_integer (q : Q) : bool := Pos.eqb (Qden (Qred q)) 1.

Definition check_number (rt : runtime) (q : Q) (c : num_check) : outcome (list issue) :=
  match c with
  | NMin v =>
      match to_number (str_to_number rt) v with
      | None => Throw type_error
      | Some n => if jsnum_lt (Fin q) n then bound_issue NumTooSmall v else Ret []
      end
  | NMax v =>
      match to_number (str_to_number rt) v with
      | None => Throw type_error
      | Some n => if jsnum_lt n (Fin q) then bound_issue NumTooBig v else Ret []
      end
  end.

(** The checks in order; the first one that throws ends the parse. *)
Fixpoint run_checks {C : Type} (f : C -> outcome (list issue)) (cs : list C)
  : outcome (list issue) :=
  match cs with
  | [] => Ret []
  | c :: rest =>
      match f c with
      | Throw e => Throw e
      | Ret is =>
          match run_checks f rest with
          | Throw e => Throw e
          | Ret is' => Ret (is ++ is')%list
          end
      end
  end.

Fixpoint first_crash (children : list (path_elem * result)) : option exn :=
  match children with
  | [] => None
  | (_, Crash e) :: _ => Some e
  | _ :: rest => first_crash rest
  end.

(** Merge of the children of an object, array or record: the children
    are parsed in order, so the first exception is the one thrown; all
    issues are collected; any aborted child aborts the parent. *)
Definition merge (children : list (path_elem * result)) (rebuild : list (path_elem * json) -> json)
  : result :=
  match first_crash children with
  | Some e => Crash e
  | None =>
  let issues := flat_map (fun pr => match snd pr with
                                    | Fail _ is => prefix (fst pr) is
                                    | _ => [] end) children in
  let aborted := existsb (fun pr => match snd pr with Fail true _ => true | _ => false end) children in
  let failed := existsb (fun pr => match snd pr with Fail _ _ => true | _ => false end) children in
  if failed then Fail aborted issues
  else Ok (Some (rebuild (flat_map (fun pr => match snd pr with
                                               | Ok (Some v) => [(fst pr, v)]
                                               | _ => [] end) children)))
  end.

Definition key_of (p : path_elem) : string := string_of_path_elem p.

(** The output object of an object or record parse; a key "__proto__" is
    not copied. *)
Definition rebuild_object (kvs' : list (path_elem * json)) : json :=
  JObj (filter (fun kv => negb (String.eqb (fst kv) "__proto__"))
               (map (fun kv => (key_of (fst kv), snd kv)) kvs')).

(** [ZodUnion]: the options in order; the first valid one wins, else the
    first dirty one, else [invalid_union]. *)
Fixpoint union_go (rs : list result) (dirty : option (list issue)) : result :=
  match rs with
  | [] => match dirty with
          | Some is => Fail false is
          | None => Fail true [mk InvalidUnion]
          end
  | Ok v :: _ => Ok v
  | Crash e :: _ => Crash e
  | Fail false is :: rest => union_go rest (match dirty with None => Some is | Some _ => dirty end)
  | Fail true _ :: rest => union_go rest dirty
  end.

Definition enum_member (vs : list json) (s : string) : bool :=
  existsb (fun v => match v with JStr s' => String.eqb s' s | _ => false end) vs.

(** [ZodEnum] on a value that is not a string, of type [received]. *)
Definition enum_type_issue (vs : list json) (received : string) : result :=
  match joinValues vs with
  | Some e => fail_type e received
  | None => Crash type_error
  end.

(** The methods of [Object.prototype]: [o[k]] finds them through a
    missing key [k]. *)
Definition prototype_methods : list string :=
  ["constructor"; "__defineGetter__"; "__defineSetter__"; "hasOwnProperty";
   "__lookupGetter__"; "__lookupSetter__"; "isPrototypeOf"; "propertyIsEnumerable";
   "toString"; "valueOf"; "toLocaleString"].

Definition inherited_method (kvs : list (string * json)) (k : string) : bool :=
  match obj_get kvs k with
  | Some _ => false
  | None => existsb (String.eqb k) prototype_methods
  end.

(** [parse] of a function value; its output is not a JSON value and is
    left out (the request built from it goes to the transport as JSON,
    which drops functions).  The transforms and refinements of this
    development wrap object schemas. *)
Fixpoint parse_fn (s : schema) : result :=
  match s with
  | ZAny => Ok None
  | ZUndefined => fail_type "undefined" "function"
  | ZString _ => fail_type "string" "function"
  | ZNumber _ _ => fail_type "number" "function"
  | ZBoolean => fail_type "boolean" "function"
  | ZNull => fail_type "null" "function"
  | ZEnum vs => enum_type_issue vs "function"
  | ZArray _ => fail_type "array" "function"
  | ZObject _ | ZRecord _ => fail_type "object" "function"
  | ZOptional s' | ZDefault s' _ => parse_fn s'
  | ZUnion os => union_go (map parse_fn os) None
  | ZTransform s' _ | ZRefine s' _ _ => parse_fn s'
  end.

(** An object parse reads [data[key]] for every key of the shape; no
    shape in this development has the key "__proto__". *)
Fixpoint parse (rt : runtime) (s : schema) (x : option json) {struct s} : result :=
  match s with
  | ZAny => Ok x
  | ZUndefined => match x with None => Ok None | Some _ => invalid_type "undefined" x end
  | ZString cs =>
      match x with
      | Some (JStr str) =>
          match run_checks (check_string rt str) cs with
          | Throw e => Crash e
          | Ret [] => Ok x
          | Ret is => Fail false is
          end
      | _ => invalid_type "string" x
      end
  | ZNumber int cs =>
      match x with
      | Some (JNum q) =>
          match run_checks (check_number rt q) cs with
          | Throw e => Crash e
          | Ret is =>
              match app (if int && negb (is_integer q) then [mk NotInteger] else []) is with
              | [] => Ok x
              | is' => Fail false is'
              end
          end
      | _ => invalid_type "number" x
      end
  | ZBoolean => match x with Some (JBool _) => Ok x | _ => invalid_type "boolean" x end
  | ZNull => match x with Some JNull => Ok x | _ => invalid_type "null" x end
  | ZEnum vs =>
      match x with
      | Some (JStr str) =>
          if enum_member vs str then Ok x
          else match joinValues vs with
               | Some e => Fail true [mk (InvalidEnum e str)]
               | None => Crash type_error
               end
      | _ => enum_type_issue vs (type_name x)
      end
  | ZArray it =>
      match x with
      | Some (JArr xs) =>
          let fix go (i : nat) (xs : list json) : list (path_elem * result) :=
            match xs with
            | [] => []
            | v :: rest => (PIdx i, parse rt it (Some v)) :: go (Datatypes.S i) rest
            end in
          merge (go 0%nat xs) (fun kvs => JArr (map snd kvs))
      | _ => invalid_type "array" x
      end
  | ZObject shape =>
      match x with
      | Some (JObj kvs) =>
          let fix go (sh : list (string * schema)) : list (path_elem * result) :=
            match sh with
            | [] => []
            | (k, sk) :: rest =>
                (PKey k, if inherited_method kvs k then parse_fn sk
                         else parse rt sk (obj_get kvs k)) :: go rest
            end in
          merge (go shape) rebuild_object
      | _ => invalid_type "object" x
      end
  | ZRecord sv =>
      match x with
      | Some (JObj kvs) =>
          merge (map (fun kv => (PKey (fst kv), parse rt sv (Some (snd kv)))) (js_entries kvs))
                rebuild_object
      | _ => invalid_type "object" x
      end
  | ZOptional s' => match x with None => Ok None | Some _ => parse rt s' x end
  | ZDefault s' d => match x with None => parse rt s' (Some d) | Some _ => parse rt s' x end
  | ZUnion opts => union_go (map (fun o => parse rt o x) opts) None
  | ZTransform s' f =>
      match parse rt s' x with
      | Ok (Some v) => Ok (Some (f v))
      | r => r
      end
  | ZRefine s' p m =>
      match parse rt s' x with
      | Ok (Some v) => if p v then Ok (Some v) else Fail false [mk (Custom m)]
      | r => r
      end
  end.




End Zod.

(* ------------------------------------------------------------------ *)
(** ** [ServerConfigSchema] (McpHub.mts, [createServerTypeSchema]) *)

Module ServerConfig.
Import Zod.












End ServerConfig.

(* ------------------------------------------------------------------ *)
(** ** [MCPClientManager]: [createZodSchema], [validateToolArgs], [callTool] *)

Module ClientManager.
Import Zod.

(** JavaScript truthiness of a property value. *)
Definition truthy (x : option json) : bool :=
  match x with
  | None | Some JNull | Some (JBool false) | Some (JStr "") => false
  | Some (JNum q) => negb (Qeq_bool q 0)
  | Some _ => true
  end.

Fixpoint json_depth (v : json) : nat :=
  match v with
  | JArr xs => Datatypes.S (fold_right (fun x m => Nat.max (json_depth x) m) O xs)
  | JObj kvs => Datatypes.S (fold_right (fun kv m => Nat.max (json_depth (snd kv)) m) O kvs)
  | _ => Datatypes.S O
  end.

Definition str_values (v : option json) : list string :=
  match v with
  | Some (JArr xs) => flat_map (fun x => match x with JStr s => [s] | _ => [] end) xs
  | _ => []
  end.

Definition is_array (v : option json) : bool :=
  match v with Some (JArr _) => true | _ => false end.

(** [schema.required.includes(key)] *)
Definition includes (v : option json) (k : string) : bool :=
  existsb (String.eqb k) (str_values v).

(** [Object.entries(schema.properties || {})] *)
Definition properties_entries (p : option json) : list (string * json) :=
  if truthy p then match p with Some v => object_entries v | None => [] end else [].

(** The loop [shape[key] = this.createZodSchema(value)], stopped by the
    first exception. *)
Fixpoint build_shape (f : json -> outcome schema) (ps : list (string * json))
  : outcome (list (string * schema)) :=
  match ps with
  | [] => Ret []
  | (k, v) :: rest =>
      match f v with
      | Throw e => Throw e
      | Ret z =>
          match build_shape f rest with
          | Throw e => Throw e
          | Ret sh => Ret ((k, z) :: sh)
          end
      end
  end.

(** [createZodSchema], recursing on the sub-schemas [items] and
    [properties.*]; [fuel] is the depth of the schema, so it never runs
    out.  [new RegExp(schema.pattern)] converts the pattern to a string
    and compiles it, either of which can throw.  [shape["__proto__"] = ...]
    sets the prototype of [shape] instead of a key, so [Object.keys(shape)]
    does not list it. *)
Fixpoint createZodSchema_fuel (rt : runtime) (fuel : nat) (sch : option json) : outcome schema :=
  match fuel with
  | O => Ret ZAny
  | Datatypes.S fuel' =>
  if negb (truthy sch) then Ret ZAny else
  let get k := match sch with Some v => json_get v k | None => None end in
  match get "type" with
  | Some (JStr "string") =>
      match (if truthy (get "pattern") then
               match get "pattern" with
               | Some p =>
                   match to_string p with
                   | None => Throw type_error
                   | Some src =>
                       match regex_error rt src with
                       | Some m => Throw (JsError m)
                       | None => Ret [SRegex src]
                       end
                   end
               | None => Ret []
               end
             else Ret []) with
      | Throw e => Throw e
      | Ret re =>
          if is_array (get "enum") then
            Ret (ZEnum (match get "enum" with Some (JArr xs) => xs | _ => [] end))
          else
            Ret (ZString (re ++ (match get "minLength" with Some b => [SMin b None] | None => [] end)
                             ++ (match get "maxLength" with Some b => [SMax b] | None => [] end))%list)
      end
  | Some (JStr "number") | Some (JStr "integer") =>
      Ret (ZNumber (match get "type" with Some (JStr "integer") => true | _ => false end)
                   ((match get "minimum" with Some b => [NMin b] | None => [] end)
                    ++ (match get "maximum" with Some b => [NMax b] | None => [] end))%list)
  | Some (JStr "boolean") => Ret ZBoolean
  | Some (JStr "null") => Ret ZNull
  | Some (JStr "array") =>
      let items := if truthy (get "items") then get "items" else Some (JObj []) in
      match createZodSchema_fuel rt fuel' items with
      | Throw e => Throw e
      | Ret z => Ret (ZArray z)
      end
  | Some (JStr "object") =>
      match build_shape (fun v => createZodSchema_fuel rt fuel' (Some v))
                        (properties_entries (get "properties")) with
      | Throw e => Throw e
      | Ret shape0 =>
          let shape := filter (fun kv => negb (String.eqb (fst kv) "__proto__")) shape0 in
          if is_array (get "required") then
            Ret (ZObject (map (fun kv => (fst kv, if includes (get "required") (fst kv)
                                                  then snd kv else ZOptional (snd kv))) shape))
          else
            Ret (ZObject (map (fun kv => (fst kv, ZOptional (snd kv))) shape))
      end
  | _ => Ret ZAny
  end
  end.

Definition createZodSchema (rt : runtime) (sch : option json) : outcome schema :=
  createZodSchema_fuel rt (match sch with Some v => json_depth v | None => O end) sch.



Record MCPTool : Type := {
  serverId : string;
  name : string;
  inputSchema : option json
}.

(** [`${err.path.join('.')}: ${err.message}`] *)
Definition format_issue (i : issue) : string :=
  join "." (map string_of_path_elem (path i)) ++ ": " ++ message (icode i).

(** The [try] covers [createZodSchema] and [schema.parse]; a [ZodError]
    becomes the error below, any other exception is rethrown. *)
Definition validateToolArgs (rt : runtime) (tool : MCPTool) (args : option json)
  : outcome (option json) :=
  match createZodSchema rt (inputSchema tool) with
  | Throw e => Throw e
  | Ret z =>
      match parse rt z args with
      | Ok v => Ret v
      | Fail _ issues =>
          Throw (JsError ("Invalid arguments for tool " ++ name tool ++ ": "
                          ++ join ", " (map format_issue issues)))
      | Crash e => Throw e
      end
  end.

(** The manager after [initialize]: the [connections] map (server id to
    client handle) and the discovered [tools]. *)
Record state : Type := {
  connections : list (string * nat);
  tools : list MCPTool
}.

Definition map_get (m : list (string * nat)) (k : string) : option nat :=
  option_map snd (find (fun kv => String.eqb (fst kv) k) m).

(** [result.isError] truthy, and the text of [result.content[0]]. *)
Definition tool_error (result : option json) : option string :=
  match result with
  | Some r =>
      if truthy (json_get r "isError") then
        Some (match json_get r "content" with
              | Some (JArr (JObj c0 :: _)) =>
                  match obj_get c0 "text" with Some (JStr t) => t | _ => "Unknown error" end
              | _ => "Unknown error"
              end)
      else None
  | None => None
  end.

(** [callTool]: the first component is the request handed to the
    transport ([client.callTool(toolName, validatedArgs)]), if any;
    [call] is the transport's answer to it. *)
Definition callTool (rt : runtime) (call : nat -> string -> option json -> outcome (option json))
  (st : state) (sid toolName : string) (args : option json)
  : option (string * option json) * outcome (option json) :=
  match map_get (connections st) sid with
  | None => (None, Throw (JsError ("No connection to MCP server " ++ sid)))
  | Some client =>
      match find (fun t => String.eqb (serverId t) sid && String.eqb (name t) toolName) (tools st) with
      | None => (None, Throw (JsError ("Tool " ++ toolName ++ " not found on server " ++ sid)))
      | Some tool =>
          match validateToolArgs rt tool args with
          | Throw e => (None, Throw e)
          | Ret validated =>
              (Some (toolName, validated),
               match call client toolName validated with
               | Throw e => Throw e
               | Ret result =>
                   match tool_error result with
                   | Some m => Throw (JsError ("Tool error: " ++ m))
                   | None => Ret result
                   end
               end)
          end
      end
  end.

End ClientManager.


(* ------------------------------------------------------------------ *)
(** ** [McpHub] *)

Module Hub.

Inductive McpServerSource : Type := Global | Project.

Definition source_eqb (a b : McpServerSource) : bool :=
  match a, b with Global, Global | Project, Project => true | _, _ => false end.

Inductive McpServerStatus : Type := Connecting | Connected | Disconnected | Error.

Record McpServer : Type := {
  srv_name : string;
  srv_config : json;
  srv_status : McpServerStatus;
  srv_disabled : bool;
  srv_source : McpServerSource;
  srv_errors : list string
}.

(** A live SDK object carries the id it was allocated with; the
    placeholder [{} as any] of a failed connect has no methods. *)
Inductive transport : Type := TrLive (id : nat) | TrPlaceholder.
Inductive client : Type := ClLive (id : nat) | ClPlaceholder.

(** A connection object; [conn_oid] is its identity (allocation number). *)
Record McpConnection : Type := {
  conn_oid : nat;
  server : McpServer;
  conn_client : client;
  conn_transport : transport
}.

Record McpTool : Type := { tool_id : string; tool_name : string; tool_server : string }.
Record McpResource : Type := { res_uri : string; res_name : string; res_server : string }.
Record McpPrompt : Type := { prompt_id : string; prompt_name : string; prompt_server : string }.

(** [McpToolCallResponse]; [None] is [undefined]. *)
Record McpToolCallResponse : Type := { cr_result : option json; cr_error : option json }.

(** The outside world of the hub: the SDK client, the transports and the
    servers behind them.
    - [connect_result n s cfg]: building the transport for [cfg] and
      [client.connect(transport)]; [None] when it resolves, [Some m] when
      it throws an error with message [m];
    - [close_result id]: [transport.close()] of transport [id];
    - [list_*]: [getToolsList] (and siblings) of a connection at a time;
    - [call_tool id toolId args]: [client.callTool(toolId, args)];
    - [string_to_number]: [StringToNumber] of the JavaScript runtime.
    [connect_result] is consulted once the URL of an SSE config has a
    scheme: the rest of [new URL(config.url)] is part of it. *)
Record env : Type := {
  connect_result : string -> McpServerSource -> json -> option string;
  close_result : nat -> option string;
  list_tools : Z -> McpConnection -> list McpTool;
  list_resources : Z -> McpConnection -> list McpResource;
  list_prompts : Z -> McpConnection -> list McpPrompt;
  call_tool : nat -> string -> json -> outcome (option json);
  string_to_number : string -> jsnum
}.

Record hub : Type := {
  connections : list McpConnection;
  cachedTools : option (list McpTool);
  cachedResources : option (list McpResource);
  cachedPrompts : option (list McpPrompt);
  lastCacheUpdate : Z;
  isDisposed : bool;
  next_id : nat;          (** allocation counter of connections, clients, transports *)
  closed : list nat       (** transports whose [close()] was invoked, latest first *)
}.

Definition CACHE_TTL : Z := 60000.

Definition new_hub : hub :=
  {| connections := []; cachedTools := None; cachedResources := None; cachedPrompts := None;
     lastCacheUpdate := 0; isDisposed := false; next_id := 0; closed := [] |}.

Definition set_connections (h : hub) (cs : list McpConnection) : hub :=
  {| connections := cs; cachedTools := cachedTools h; cachedResources := cachedResources h;
     cachedPrompts := cachedPrompts h; lastCacheUpdate := lastCacheUpdate h;
     isDisposed := isDisposed h; next_id := next_id h; closed := closed h |}.

Definition alloc (h : hub) : hub :=
  {| connections := connections h; cachedTools := cachedTools h;
     cachedResources := cachedResources h; cachedPrompts := cachedPrompts h;
     lastCacheUpdate := lastCacheUpdate h; isDisposed := isDisposed h;
     next_id := Datatypes.S (next_id h); closed := closed h |}.

Definition log_close (h : hub) (id : nat) : hub :=
  {| connections := connections h; cachedTools := cachedTools h;
     cachedResources := cachedResources h; cachedPrompts := cachedPrompts h;
     lastCacheUpdate := lastCacheUpdate h; isDisposed := isDisposed h;
     next_id := next_id h; closed := id :: closed h |}.


(** [invalidateCache] *)
Definition invalidateCache (h : hub) : hub :=
  {| connections := connections h; cachedTools := None; cachedResources := None;
     cachedPrompts := None; lastCacheUpdate := 0; isDisposed := isDisposed h;
     next_id := next_id h; closed := closed h |}.

(** The predicate of [findConnection] and of the filter in [deleteConnection]. *)
Definition matches (name : string) (src : option McpServerSource) (c : McpConnection) : bool :=
  match src with
  | Some s => String.eqb (srv_name (server c)) name && source_eqb (srv_source (server c)) s
  | None => String.eqb (srv_name (server c)) name
  end.

(** [findConnection] *)
Definition findConnection (cs : list McpConnection) (name : string) (src : option McpServerSource)
  : option McpConnection :=
  find (matches name src) cs.

(** [deleteConnection]: closing a live transport is logged; if it throws,
    the error is caught and logged and the list is left as it is. *)
Definition deleteConnection (e : env) (h : hub) (name : string) (src : option McpServerSource) : hub :=
  match findConnection (connections h) name src with
  | None => h
  | Some c =>
      let '(h1, res) :=
        match conn_transport c with
        | TrLive id => (log_close h id, close_result e id)
        | TrPlaceholder => (h, None)
        end in
      match res with
      | Some _ => h1
      | None => invalidateCache (set_connections h1 (filter (fun c' => negb (matches name src c')) (connections h1)))
      end
  end.

(** [config.disabled || false], as a truth value *)
Definition config_disabled (config : json) : bool :=
  ClientManager.truthy (json_get config "disabled").

(** *** [new URL(s)]: the scheme

    The URL parser strips leading C0 controls and spaces, removes tabs and
    newlines, and fails at once ("Invalid URL") unless the input starts
    with a scheme: an ASCII letter, then letters, digits, "+", "-" or ".",
    then ":". *)

Definition is_alpha (c : ascii) : bool :=
  let n := N_of_ascii c in
  ((N.leb 65 n && N.leb n 90) || (N.leb 97 n && N.leb n 122))%bool.

Definition is_scheme_char (c : ascii) : bool :=
  (is_alpha c || (N.leb 48 (N_of_ascii c) && N.leb (N_of_ascii c) 57)
   || Ascii.eqb c "+" || Ascii.eqb c "-" || Ascii.eqb c ".")%bool.

Fixpoint strip_leading (s : string) : string :=
  match s with
  | EmptyString => EmptyString
  | String c rest => if N.leb (N_of_ascii c) 32 then strip_leading rest else s
  end.

Fixpoint remove_tab_newline (s : string) : string :=
  match s with
  | EmptyString => EmptyString
  | String c rest =>
      if (Ascii.eqb c "009"%char || Ascii.eqb c "010"%char || Ascii.eqb c "013"%char)%bool
      then remove_tab_newline rest
      else String c (remove_tab_newline rest)
  end.

Fixpoint scheme_rest (s : string) : bool :=
  match s with
  | EmptyString => false
  | String c rest => if Ascii.eqb c ":" then true else if is_scheme_char c then scheme_rest rest else false
  end.

Definition has_scheme (u : string) : bool :=
  match remove_tab_newline (strip_leading u) with
  | EmptyString => false
  | String c rest => (is_alpha c && scheme_rest rest)%bool
  end.

(** The error [connectToServer] meets before the connection is pushed:
    [config.type === 'stdio'] builds a stdio transport; otherwise
    [new URL(config.url)] converts [config.url] to a string, which throws
    for an object with its own "toString" key and gives "undefined" when
    it is absent. *)
Definition connect_error (e : env) (name : string) (src : McpServerSource) (config : json)
  : option string :=
  match json_get config "type" with
  | Some (JStr "stdio") => connect_result e name src config
  | _ =>
      match match json_get config "url" with Some u => to_string u | None => Some "undefined" end with
      | None => Some to_primitive_error
      | Some u => if has_scheme u then connect_result e name src config else Some "Invalid URL"
      end
  end.

(** [if (config.watchPaths && config.watchPaths.length > 0)] and the
    [watchPaths.join(', ')] that [setupFileWatchers] logs first; an error
    of [fs.watch] is caught inside [setupFileWatchers].  A string or an
    object has no [join] method. *)
Definition watch_error (e : env) (config : json) : option string :=
  let not_a_function := "watchPaths.join is not a function" in
  match json_get config "watchPaths" with
  | Some (JArr xs) =>
      match xs with
      | [] => None
      | _ => match to_string (JArr xs) with Some _ => None | None => Some to_primitive_error end
      end
  | Some (JStr s) => match s with EmptyString => None | _ => Some not_a_function end
  | Some (JObj kvs) =>
      match obj_get kvs "length" with
      | None => None
      | Some l =>
          match to_number (string_to_number e) l with
          | None => Some to_primitive_error
          | Some n => if jsnum_lt (Fin 0) n then Some not_a_function else None
          end
      end
  | _ => None
  end.

(** The log [`Connected to server ${name} (${config.type})`]. *)
Definition log_error (config : json) : option string :=
  match json_get config "type" with
  | Some t => match to_string t with Some _ => None | None => Some to_primitive_error end
  | None => None
  end.

Definition is_null (v : json) : bool := match v with JNull => true | _ => false end.

(** The [catch] block of [connectToServer]: a server in state error and a
    placeholder connection [{ client: {}, transport: {} }]. *)
Definition push_placeholder (h : hub) (name : string) (config : json) (src : McpServerSource)
  (msg : string) : hub :=
  let srv := {| srv_name := name; srv_config := config; srv_status := Error;
                srv_disabled := config_disabled config; srv_source := src; srv_errors := [msg] |} in
  let c := {| conn_oid := next_id h; server := srv; conn_client := ClPlaceholder;
              conn_transport := TrPlaceholder |} in
  set_connections (alloc h) (connections h ++ [c]).

(** [connectToServer]: the hub afterwards, and whether the call resolves
    or throws.  On a [null] config, reading [config.disabled] throws in
    the [try] block and again in its [catch] block. *)
Definition connectToServer (e : env) (h : hub) (name : string) (config : json) (src : McpServerSource)
  : hub * outcome unit :=
  let h1 := deleteConnection e h name (Some src) in
  if is_null config then
    (h1, Throw (JsError "Cannot read properties of null (reading 'disabled')"))
  else
  match connect_error e name src config with
  | Some msg => (push_placeholder h1 name config src msg, Ret tt)
  | None =>
      let id := next_id h1 in
      let srv := {| srv_name := name; srv_config := config; srv_status := Connected;
                    srv_disabled := config_disabled config; srv_source := src; srv_errors := [] |} in
      let c := {| conn_oid := id; server := srv; conn_client := ClLive id; conn_transport := TrLive id |} in
      let h2 := set_connections (alloc h1) (connections h1 ++ [c]) in
      match watch_error e config with
      | Some msg => (push_placeholder h2 name config src msg, Ret tt)
      | None =>
          let h3 := invalidateCache h2 in
          match log_error config with
          | Some msg => (push_placeholder h3 name config src msg, Ret tt)
          | None => (h3, Ret tt)
          end
      end
  end.

(** The body of the first loop of [updateServerConnections]: delete a
    current server that is not in the new configuration. *)
Definition prune_server (e : env) (src : McpServerSource) (newServerNames : list string)
  (h : hub) (n : string) : hub :=
  if existsb (String.eqb n) newServerNames then h else deleteConnection e h n (Some src).

(** The body of the second loop: skip a server whose current config
    stringifies the same, otherwise (re)connect it. *)
Definition reconcile_server (e : env) (src : McpServerSource) (h : hub) (nc : string * json) : hub :=
  match findConnection (connections h) (fst nc) (Some src) with
  | Some c =>
      if String.eqb (json_stringify (srv_config (server c))) (json_stringify (snd nc))
      then h
      else fst (connectToServer e h (fst nc) (snd nc) src)
  | None => fst (connectToServer e h (fst nc) (snd nc) src)
  end.

(** [updateServerConnections(serverConfigs, source)]; [configs] is
    [Object.entries(serverConfigs)]. *)
Definition updateServerConnections (e : env) (h : hub) (configs : list (string * json)) (src : McpServerSource)
  : hub :=
  let currentServerNames := map (fun c => srv_name (server c))
                               (filter (fun c => source_eqb (srv_source (server c)) src) (connections h)) in
  let newServerNames := map fst configs in
  let h1 := fold_left (prune_server e src newServerNames) currentServerNames h in
  fold_left (reconcile_server e src) configs h1.


(** [callTool]: the [try] block and its [catch]. *)
Definition callTool (e : env) (h : hub) (serverName toolId : string) (args : json)
  (src : option McpServerSource) : outcome McpToolCallResponse :=
  match findConnection (connections h) serverName src with
  | None => Ret {| cr_result := Some JNull; cr_error := Some (JStr ("Server " ++ serverName ++ " not found")) |}
  | Some c =>
      let attempt : outcome McpToolCallResponse :=
        match conn_client c with
        | ClPlaceholder => Throw (JsError "connection.client.callTool is not a function")
        | ClLive id =>
            match call_tool e id toolId args with
            | Throw ex => Throw ex
            | Ret None => Throw (JsError "Cannot read properties of undefined (reading 'result')")
            | Ret (Some JNull) => Throw (JsError "Cannot read properties of null (reading 'result')")
            | Ret (Some r) => Ret {| cr_result := json_get r "result"; cr_error := json_get r "error" |}
            end
        end in
      match attempt with
      | Ret r => Ret r
      | Throw ex => Ret {| cr_result := Some JNull; cr_error := Some (JStr (exn_message ex)) |}
      end
  end.

(** [isCacheValid] at time [now] ([Date.now()]). *)
Definition isCacheValid (h : hub) (now : Z) : bool :=
  (0 <? lastCacheUpdate h)%Z && (now - lastCacheUpdate h <? CACHE_TTL)%Z.

Definition aggregated (c : McpConnection) : bool :=
  negb (srv_disabled (server c)) &&
  match srv_status (server c) with Connected => true | _ => false end.

(** The loop of [aggregateTools]: first occurrence of each
    [`${server}:${id}`] key wins. *)
Definition dedup {A : Type} (key : A -> string) (xs : list A) : list A :=
  rev (snd (fold_left (fun acc x =>
                         if existsb (String.eqb (key x)) (fst acc) then acc
                         else (key x :: fst acc, x :: snd acc)) xs ([], []))).



Definition collect_prompts (e : env) (h : hub) (now : Z) : list McpPrompt :=
  dedup (fun p => prompt_server p ++ ":" ++ prompt_id p)
        (flat_map (fun c => if aggregated c then list_prompts e now c else []) (connections h)).



(** [aggregatePrompts] called at time [now]. *)
Definition aggregatePrompts (e : env) (now : Z) (h : hub) : hub * list McpPrompt :=
  let recompute :=
    let ps := collect_prompts e h now in
    ({| connections := connections h; cachedTools := cachedTools h; cachedResources := cachedResources h;
        cachedPrompts := Some ps; lastCacheUpdate := now; isDisposed := isDisposed h;
        next_id := next_id h; closed := closed h |}, ps) in
  match cachedPrompts h with
  | Some ps => if isCacheValid h now then (h, ps) else recompute
  | None => recompute
  end.

End Hub.

(* ------------------------------------------------------------------ *)
(** ** [McpServerManager]: the shared hub and its reference count *)

Module Manager.
Import Hub.

(** The configuration file as [loadConfiguration] finds it. *)
Inductive config_file : Type :=
| FileMissing                                        (** [fileExistsAtPath] is false *)
| FileUnreadable (msg : string)                      (** [readFile] or [JSON.parse] throws *)
| FileParsed (mcpServers : option (list (string * json))).

(** The static fields of the class; providers are identified by a number.
    [initializationPromise] is [null] whenever no call is in flight, which
    is always the case between the sequential calls modelled here. *)
Record state : Type := {
  instance : option hub;
  providers : list nat;
  refCount : Z;
  configWatcher : option nat;
  initialized : bool;
  next_watcher : nat;
  closed_watchers : list nat;     (** watchers whose [close()] was called *)
  disposed_hubs : list hub        (** hubs [cleanup] disposed, latest first *)
}.



Definition with_instance (m : state) (i : option hub) : state :=
  {| instance := i; providers := providers m; refCount := refCount m;
     configWatcher := configWatcher m; initialized := initialized m;
     next_watcher := next_watcher m; closed_watchers := closed_watchers m;
     disposed_hubs := disposed_hubs m |}.

(** [loadConfiguration] *)
Definition loadConfiguration (e : env) (file : config_file) (m : state) : state * outcome unit :=
  match file with
  | FileMissing => (m, Ret tt)
  | FileUnreadable msg => (m, Throw (JsError msg))
  | FileParsed None => (m, Ret tt)
  | FileParsed (Some servers) =>
      match instance m with
      | Some h => (with_instance m (Some (updateServerConnections e h servers Global)), Ret tt)
      | None => (m, Ret tt)
      end
  end.

(** [setupConfigWatcher]: [stat_ok] tells whether [fs.stat] succeeds;
    its failure is caught and logged. *)
Definition setupConfigWatcher (stat_ok : bool) (m : state) : state :=
  if stat_ok then
    {| instance := instance m; providers := providers m; refCount := refCount m;
       configWatcher := Some (next_watcher m); initialized := initialized m;
       next_watcher := Datatypes.S (next_watcher m); closed_watchers := closed_watchers m;
       disposed_hubs := disposed_hubs m |}
  else m.

Definition set_initialized (m : state) : state :=
  {| instance := instance m; providers := providers m; refCount := refCount m;
     configWatcher := configWatcher m; initialized := true;
     next_watcher := next_watcher m; closed_watchers := closed_watchers m;
     disposed_hubs := disposed_hubs m |}.

(** [initialize] *)
Definition initialize (e : env) (file : config_file) (stat_ok : bool) (m : state) : state * outcome unit :=
  if initialized m then (m, Ret tt) else
  match loadConfiguration e file m with
  | (m1, Throw ex) => (m1, Throw ex)
  | (m1, Ret _) => (set_initialized (setupConfigWatcher stat_ok m1), Ret tt)
  end.







End Manager.

(* ------------------------------------------------------------------ *)
(** ** [McpHub]: per-server queries and server lists; the static
    queries and commands of [McpServerManager] *)

Module HubServer.
Import Hub.



(** [getAllServers] *)
Definition getAllServers (h : hub) : list McpServer := map server (connections h).



















End HubServer.

Module ManagerOps.
Import Hub HubServer Manager.









End ManagerOps.

(* ------------------------------------------------------------------ *)
(** ** [MCPClientManager]: configuration, connections, tool discovery *)

Module ClientLifecycle.
Import Zod ClientManager.

(** [MCPServerConfigSchema] and [MCPConfigSchema] *)
Definition MCPServerConfigSchema : schema :=
  ZObject [("command", ZString []); ("args", ZArray (ZString []));
           ("env", ZOptional (ZRecord (ZString [])))].

Definition MCPConfigSchema : schema := ZObject [("mcpServers", ZRecord MCPServerConfigSchema)].

(** [fs.readFile(configPath)] followed by [JSON.parse]. *)
Inductive config_read : Type :=
| ReadMissing                   (** the error has code [ENOENT] *)
| ReadError (msg : string)      (** any other error of [readFile] or [JSON.parse] *)
| ReadJson (v : json).

(** [{ command, args, env }] given to [new StdioClientTransport]. *)
Record stdio_params : Type := {
  sp_command : option json;
  sp_args : option json;
  sp_env : list (string * json)
}.

(** The outside world of the manager:
    - [config_file]: what reading the configuration file gives;
    - [process_env]: [Object.entries(process.env)] (all values strings);
    - [connect sid p]: [client.connect(transport)] for server [sid] with
      the transport built from [p]; [Some m] when it throws;
    - [list_tools id]: [client.listTools()] of client [id]; the SDK
      validates the result, so its [tools] are objects with a string
      [name], given here with their [inputSchema];
    - [rt]: the runtime checks of zod. *)
Record world : Type := {
  config_file : config_read;
  process_env : list (string * string);
  connect : string -> stdio_params -> option string;
  list_tools : nat -> outcome (list (string * option json));
  rt : runtime
}.

(** The fields of an instance; [cm_config] is [this.config.mcpServers]
    ([None] while [this.config] is [null]); [cm_connections] is the
    [Map] from server id to client, in insertion order. *)
Record cm : Type := {
  cm_connections : list (string * nat);
  cm_config : option (list (string * json));
  cm_tools : list MCPTool;
  cm_initialized : bool;
  cm_next : nat;                  (** allocation counter of clients *)
  cm_closed : list nat            (** clients whose [close()] was called, latest first *)
}.


(** [Map.prototype.set]: an existing key keeps its position. *)
Fixpoint map_set {V : Type} (m : list (string * V)) (k : string) (v : V) : list (string * V) :=
  match m with
  | [] => [(k, v)]
  | (k', v') :: rest => if String.eqb k k' then (k', v) :: rest else (k', v') :: map_set rest k v
  end.

(** [obj[key] = value] with a string value: the [__proto__] setter
    ignores it, any other key is set in place or appended.  (Property
    enumeration puts integer-like keys first; only lookups are used here.) *)
Definition js_assign (o : list (string * json)) (k : string) (v : json) : list (string * json) :=
  if String.eqb k "__proto__" then o else map_set o k v.

(** [envVars] of [connectToServer]: the server's [env] entries, then the
    entries of [process.env].  After parsing, [env] is a record or absent. *)
Definition envVars (env : option json) (penv : list (string * string)) : list (string * json) :=
  let fromConfig :=
    match env with
    | Some (JObj kvs) => fold_left (fun o kv => js_assign o (fst kv) (snd kv)) kvs []
    | _ => []
    end in
  fold_left (fun o kv => js_assign o (fst kv) (JStr (snd kv))) penv fromConfig.

Definition transport_params (serverConfig : json) (penv : list (string * string)) : stdio_params :=
  {| sp_command := json_get serverConfig "command"; sp_args := json_get serverConfig "args";
     sp_env := envVars (json_get serverConfig "env") penv |}.

Definition with_connections (m : cm) (cs : list (string * nat)) : cm :=
  {| cm_connections := cs; cm_config := cm_config m; cm_tools := cm_tools m;
     cm_initialized := cm_initialized m; cm_next := cm_next m; cm_closed := cm_closed m |}.

Definition with_config (m : cm) (c : list (string * json)) : cm :=
  {| cm_connections := cm_connections m; cm_config := Some c; cm_tools := cm_tools m;
     cm_initialized := cm_initialized m; cm_next := cm_next m; cm_closed := cm_closed m |}.

Definition with_tools (m : cm) (ts : list MCPTool) : cm :=
  {| cm_connections := cm_connections m; cm_config := cm_config m; cm_tools := ts;
     cm_initialized := cm_initialized m; cm_next := cm_next m; cm_closed := cm_closed m |}.

Definition with_initialized (m : cm) (b : bool) : cm :=
  {| cm_connections := cm_connections m; cm_config := cm_config m; cm_tools := cm_tools m;
     cm_initialized := b; cm_next := cm_next m; cm_closed := cm_closed m |}.

Definition alloc_client (m : cm) : cm :=
  {| cm_connections := cm_connections m; cm_config := cm_config m; cm_tools := cm_tools m;
     cm_initialized := cm_initialized m; cm_next := Datatypes.S (cm_next m); cm_closed := cm_closed m |}.

(** [config.mcpServers] of a parsed configuration. *)
Definition servers_of (d : json) : list (string * json) :=
  match json_get d "mcpServers" with Some (JObj kvs) => kvs | _ => [] end.

(** [loadConfig]: a missing file and an invalid configuration are
    logged and leave [this.config] as it was; other errors, among them an
    exception thrown by [safeParse], are rethrown. *)
Definition loadConfig (w : world) (m : cm) : cm * outcome unit :=
  match config_file w with
  | ReadMissing => (m, Ret tt)
  | ReadError msg => (m, Throw (JsError msg))
  | ReadJson v =>
      match parse (rt w) MCPConfigSchema (Some v) with
      | Ok (Some d) => (with_config m (servers_of d), Ret tt)
      | Crash ex => (m, Throw ex)
      | _ => (m, Ret tt)
      end
  end.

(** [connectToServer(serverId)]: the client it resolves to, if any; a
    failing connect is caught and logged. *)
Definition connectToServer (w : world) (serverId : string) (m : cm) : cm * option nat :=
  match cm_config m with
  | None => (m, None)
  | Some servers =>
      let serverConfig := obj_get servers serverId in
      if negb (truthy serverConfig) then (m, None) else
      match serverConfig with
      | None => (m, None)
      | Some cfg =>
          let client := cm_next m in
          let m1 := alloc_client m in
          match connect w serverId (transport_params cfg (process_env w)) with
          | Some _ => (m1, None)
          | None => (with_connections m1 (map_set (cm_connections m1) serverId client), Some client)
          end
      end
  end.

(** The tools one server contributes to [discoverAllTools]. *)
Definition server_tools (w : world) (kv : string * nat) : list MCPTool :=
  match list_tools w (snd kv) with
  | Ret ts => map (fun t => {| serverId := fst kv; name := fst t; inputSchema := snd t |}) ts
  | Throw _ => []
  end.

(** [discoverAllTools] *)
Definition discoverAllTools (w : world) (m : cm) : cm :=
  with_tools m (flat_map (server_tools w) (cm_connections m)).

(** [initialize] *)
Definition initialize (w : world) (m : cm) : cm * outcome unit :=
  if cm_initialized m then (m, Ret tt) else
  match loadConfig w m with
  | (m1, Throw ex) => (m1, Throw ex)
  | (m1, Ret _) =>
      match cm_config m1 with
      | None => (m1, Ret tt)
      | Some servers =>
          let m2 := fold_left (fun m sid => fst (connectToServer w sid m)) (map fst servers) m1 in
          (with_initialized (discoverAllTools w m2) true, Ret tt)
      end
  end.


(** [findTool(toolName)]; [None] is [null]. *)
Definition findTool (m : cm) (toolName : string) : option MCPTool :=
  find (fun t => String.eqb (name t) toolName) (cm_tools m).



End ClientLifecycle.

(* ------------------------------------------------------------------ *)
(** ** Concrete inputs *)

Module Scenario.
Import Hub.


(** Servers answer discovery with one tool whose id names the time. *)
Definition tools_at (t : Z) (c : McpConnection) : list McpTool :=
  [{| tool_id := "t" ++ string_of_Z t; tool_name := "tool"; tool_server := srv_name (server c) |}].

(** Every connect succeeds and every close succeeds. *)
Definition env_ok : env :=
  {| connect_result := fun _ _ _ => None; close_result := fun _ => None;
     list_tools := tools_at; list_resources := fun _ _ => []; list_prompts := fun _ _ => [];
     call_tool := fun _ _ _ => Ret (Some (JObj [("result", JStr "success")]));
     string_to_number := fun _ => NaN |}.


















End Scenario.

(* ================================================================== *)
(** * Proofs *)

(** ** Generic lemmas *)

Lemma find_none_all {A} (f : A -> bool) (l : list A) :
  (forall x, In x l -> f x = false) -> find f l = None.
Proof.
  induction l as [|a l IH]; simpl; intros H; [reflexivity|].
  rewrite (H a (or_introl eq_refl)). apply IH. intros x Hx. apply H. now right.
Qed.




(** ** The zod model *)

Module ZodFacts.
Import Zod.











End ZodFacts.


Module ServerConfigFacts.
Import Zod ServerConfig ZodFacts.




End ServerConfigFacts.

(* ------------------------------------------------------------------ *)
(** ** C1: [McpHub.callTool] *)

(** C1: for a server name [s] with no connection, [callTool(s, toolId, args)]
    returns [{ result: null, error: "Server s not found" }]; [callTool] never
    rejects; and an exception raised by the transport during the call is
    turned into a response whose [error] is the exception's message. *)
Theorem callTool_not_found_never_throws (e : Hub.env) (h : Hub.hub) (s toolId : string) (args : json) :
  ((forall c, In c (Hub.connections h) -> Hub.srv_name (Hub.server c) <> s) ->
   Hub.callTool e h s toolId args None
   = Ret {| Hub.cr_result := Some JNull; Hub.cr_error := Some (JStr ("Server " ++ s ++ " not found")) |})
  /\ (forall src, exists r, Hub.callTool e h s toolId args src = Ret r)
  /\ (forall src c id ex,
        Hub.findConnection (Hub.connections h) s src = Some c ->
        Hub.conn_client c = Hub.ClLive id ->
        Hub.call_tool e id toolId args = Throw ex ->
        Hub.callTool e h s toolId args src
        = Ret {| Hub.cr_result := Some JNull; Hub.cr_error := Some (JStr (exn_message ex)) |}).
Proof.
  split; [|split].
  - intros Hnone. unfold Hub.callTool, Hub.findConnection.
    rewrite (find_none_all (Hub.matches s None) _
               (fun c Hc => proj2 (String.eqb_neq _ _) (Hnone c Hc))). reflexivity.
  - intros src. unfold Hub.callTool.
    destruct (Hub.findConnection (Hub.connections h) s src) as [c|]; [|eauto].
    destruct (Hub.conn_client c) as [id|]; [|eauto].
    destruct (Hub.call_tool e id toolId args) as [[[| | | | |]|]|]; eauto.
  - intros src c id ex Hf Hc Ht. unfold Hub.callTool. rewrite Hf, Hc, Ht. reflexivity.
Qed.

(** The scenario of the spec: [callTool("missing-server", "x", {})] on a hub
    with no connection. *)
Lemma callTool_not_found_never_throws_witness :
  Hub.callTool Scenario.env_ok Hub.new_hub "missing-server" "x" (JObj []) None
  = Ret {| Hub.cr_result := Some JNull; Hub.cr_error := Some (JStr "Server missing-server not found") |}.
Proof.
  apply (proj1 (callTool_not_found_never_throws Scenario.env_ok Hub.new_hub "missing-server" "x" (JObj []))).
  intros c Hc. destruct Hc.
Defined.

(* ------------------------------------------------------------------ *)
(** ** C8: [ServerConfigSchema] rejects mixed entries *)



(* ------------------------------------------------------------------ *)
(** ** C2: one connection per (name, source) *)


(* ------------------------------------------------------------------ *)
(** ** C3: the cache TTL *)


(* ------------------------------------------------------------------ *)
(** ** C5: teardown by the last [unregisterProvider] *)


(* ------------------------------------------------------------------ *)
(** ** C7: cache invalidation on connect and disconnect *)




(* ------------------------------------------------------------------ *)
(** ** C10: [unregisterProvider] and the reference count *)




(* ------------------------------------------------------------------ *)
(** ** Facts about [createZodSchema] and object parsing *)

Module ClientFacts.
Import Zod ClientManager ZodFacts.























End ClientFacts.

(* ------------------------------------------------------------------ *)
(** ** C6: arguments that fail validation *)




(* ------------------------------------------------------------------ *)
(** ** C9: undeclared properties are stripped *)



(* ------------------------------------------------------------------ *)
(** ** Facts about the connection list of the hub *)

Module HubFacts.
Import Hub.

Section CloseOk.
Variable e : env.
Hypothesis close_ok : forall id, close_result e id = None.

























End CloseOk.
End HubFacts.

(* ------------------------------------------------------------------ *)
(** ** C4: [updateServerConnections] *)




(* ------------------------------------------------------------------ *)
(** ** The reference count over matched registrations *)

Module ManagerFacts.
Import Hub Manager.







End ManagerFacts.



(** ** Per-server queries of the hub and the manager's static commands *)

Module HubServerFacts.
Import Hub HubServer.















Lemma findConnection_In cs n src c : findConnection cs n src = Some c -> In c cs.
Proof. unfold findConnection. intros H. apply find_some in H. exact (proj1 H). Qed.

End HubServerFacts.













(** ** The lifecycle of [MCPClientManager] *)

Module ClientLifecycleFacts.
Import Zod ClientManager ClientLifecycle.





Lemma connect_config w sid m : cm_config (fst (connectToServer w sid m)) = cm_config m.
Proof.
  unfold connectToServer. destruct (cm_config m) as [servers|] eqn:Hc; [|exact Hc].
  destruct (negb (truthy (obj_get servers sid))); [exact Hc|].
  destruct (obj_get servers sid) as [cfg|]; [|exact Hc].
  destruct (connect w sid _); exact Hc.
Qed.

Lemma fold_connect_config w sids m :
  cm_config (fold_left (fun m sid => fst (connectToServer w sid m)) sids m) = cm_config m.
Proof.
  revert m; induction sids as [|sid sids IH]; intros m; cbn [fold_left]; [reflexivity|].
  rewrite IH. apply connect_config.
Qed.







End ClientLifecycleFacts.



Module ClientLifecycleFacts2.
Import Zod ClientManager ClientLifecycle ClientLifecycleFacts.










End ClientLifecycleFacts2.








